(** * backend-tools-handbook: the site configuration and the sidebar

    The repository is a Docusaurus site.  Its two JavaScript modules are
    object literals: [docusaurus.config.js] exports the site
    configuration and [sidebars.js] exports the navigation descriptor.
    Both are embedded below as values of a small JavaScript value type,
    property by property and in source order.  The only computation in
    either module is the template literal of the footer, which reads the
    clock ([new Date().getFullYear()]); the clock is therefore an explicit
    argument of the configuration. *)

From Stdlib Require Import ZArith Lia DecimalString DecimalZ.
From stdpp Require Import base option list strings.
From Stdlib Require Import Ascii.

Local Open Scope string_scope.
Local Open Scope Z_scope.

(** ** JavaScript values *)

Module JS.

(** The values that occur in the two modules: strings, booleans, array
    literals, object literals (properties in source order) and
    bindings imported from another package. *)
Unset Elimination Schemes.
Inductive JSValue : Type :=
| JSString (s : string)
| JSBoolean (b : bool)
| JSArray (elements : list JSValue)
| JSObject (properties : list (string * JSValue))
| JSImported (module : string) (path : list string).
Set Elimination Schemes.

(** Induction over a value reaches the elements of an array and the
    property values of an object. *)
Definition JSValue_nested_ind (P : JSValue -> Prop)
    (Hstring : forall s, P (JSString s))
    (Hboolean : forall b, P (JSBoolean b))
    (Harray : forall xs, Forall P xs -> P (JSArray xs))
    (Hobject : forall ps, Forall (fun p => P p.2) ps -> P (JSObject ps))
    (Himported : forall m path, P (JSImported m path)) :
  forall v, P v :=
  fix go (v : JSValue) : P v :=
    match v with
    | JSString s => Hstring s
    | JSBoolean b => Hboolean b
    | JSArray xs =>
        Harray xs
          ((fix elements (l : list JSValue) : Forall P l :=
              match l with
              | [] => Forall_nil_2 P
              | x :: l' => Forall_cons_2 P x l' (go x) (elements l')
              end) xs)
    | JSObject ps =>
        Hobject ps
          ((fix properties (l : list (string * JSValue)) : Forall (fun p => P p.2) l :=
              match l with
              | [] => Forall_nil_2 _
              | p :: l' => Forall_cons_2 _ p l' (go p.2) (properties l')
              end) ps)
    | JSImported m path => Himported m path
    end.

(** Property lookup in an object literal.  When a literal repeats a
    key, the later property wins. *)
Fixpoint assoc {A : Type} (k : string) (ps : list (string * A)) : option A :=
  match ps with
  | [] => None
  | (k', x) :: rest =>
      match assoc k rest with
      | Some y => Some y
      | None => if decide (k = k') then Some x else None
      end
  end.

(** [v.k] and [v[i]], read off the literals of the module: the property
    an object literal writes under [k], the element an array literal
    writes at [i].  [None] says that the literal writes nothing there;
    what the language adds to a value (the length and the characters of
    a string, the length of an array, inherited methods) is not part of
    the module's text and is not modelled. *)
Definition prop (k : string) (v : JSValue) : option JSValue :=
  match v with
  | JSObject ps => assoc k ps
  | _ => None
  end.

Definition elem (i : nat) (v : JSValue) : option JSValue :=
  match v with
  | JSArray xs => xs !! i
  | _ => None
  end.

Inductive Step : Type :=
| Key (k : string)
| Idx (i : nat).

(** A chain of member accesses, [v.a[0].b]. *)
Fixpoint select (path : list Step) (v : JSValue) : option JSValue :=
  match path with
  | [] => Some v
  | Key k :: rest => prop k v ≫= select rest
  | Idx i :: rest => elem i v ≫= select rest
  end.

Definition is_scalar (v : JSValue) : bool :=
  match v with
  | JSString _ | JSBoolean _ => true
  | _ => false
  end.

(** A record is flat when every one of its options is a scalar. *)
Definition is_flat (v : JSValue) : bool :=
  match v with
  | JSObject ps => forallb (fun p => is_scalar p.2) ps
  | _ => false
  end.

(** Every property name the literals of the value write, at any depth,
    in source order. *)
Fixpoint all_keys (v : JSValue) : list string :=
  match v with
  | JSArray xs => flat_map all_keys xs
  | JSObject ps => flat_map (fun p => p.1 :: all_keys p.2) ps
  | _ => []
  end.

(** Every string the literals of the value write, at any depth, in
    source order. *)
Fixpoint all_strings (v : JSValue) : list string :=
  match v with
  | JSString s => [s]
  | JSArray xs => flat_map all_strings xs
  | JSObject ps => flat_map (fun p => all_strings p.2) ps
  | _ => []
  end.

(** The strings that name a file by a path relative to the module. *)
Definition is_relative_path (s : string) : bool := String.prefix "./" s.

Definition file_references (v : JSValue) : list string :=
  filter (fun s => is_relative_path s) (all_strings v).

(** *** The clock

    [new Date()] reads the current time value, in milliseconds since
    the epoch; [getFullYear] is the year of that time value in local
    time.  The day and year arithmetic is ECMAScript's (ECMA-262,
    Time Values and Time Range, Year Number). *)
Record Clock : Type := {
  timeValue : Z;  (* what [new Date()] captures *)
  localTZA : Z    (* offset of local time from UTC, in milliseconds *)
}.

Definition msPerDay : Z := 86400000.

Definition Day (t : Z) : Z := t / msPerDay.

Definition DayFromYear (y : Z) : Z :=
  365 * (y - 1970) + (y - 1969) / 4 - (y - 1901) / 100 + (y - 1601) / 400.

Definition TimeFromYear (y : Z) : Z := msPerDay * DayFromYear y.

(** The largest year whose first instant is not after [t].  A mean
    Gregorian year has 146097/400 days, so the estimate is off by at
    most one year. *)
Definition YearFromTime (t : Z) : Z :=
  let d := Day t in
  let y := 1970 + (400 * d) / 146097 in
  if d <? DayFromYear y then y - 1
  else if DayFromYear (y + 1) <=? d then y + 1
  else y.

Definition LocalTime (c : Clock) : Z := timeValue c + localTZA c.

Definition getFullYear (c : Clock) : Z := YearFromTime (LocalTime c).

(** Number::toString on an integer, as a template literal applies it.
    A time value lies within 8.64e15 milliseconds of the epoch, so a
    year has at most six digits and prints in plain decimal. *)
Definition toString (n : Z) : string := NilZero.string_of_int (Z.to_int n).

(** The quotation mark and the line feed, which a string literal
    cannot hold. *)
Definition dq : string := String (Ascii.ascii_of_nat 34) "".
Definition lf : string := String (Ascii.ascii_of_nat 10) "".

End JS.

Import JS.

(** ** docusaurus.config.js *)

Module Config.

(** [import {themes as prismThemes} from 'prism-react-renderer'].  The
    themes are values of another package; the configuration only
    refers to them, so [prismThemes.github] and [prismThemes.dracula]
    stand here as references, without the contents the package gives
    them. *)
Definition prismThemes (name : string) : JSValue :=
  JSImported "prism-react-renderer" ["themes"; name].

(** The copyright sign, U+00A9, in the UTF-8 bytes the source file
    holds. *)
Definition copyright_sign : string :=
  String (Ascii.ascii_of_nat 194) (String (Ascii.ascii_of_nat 169) "").

(** The lines of the footer template before the line that holds the
    substitution.  The template opens with a line break. *)
Definition footer_head : list string :=
  [
    "";
    "            <style>";
    "              .footer-container {";
    "                display: flex;";
    "                justify-content: space-between;";
    "                align-items: center;";
    "                padding: 2rem;";
    "                font-size: 1.1rem;";
    "                gap: 1rem;";
    "                line-height: 1.6;";
    "              }";
    "              ";
    "              @media (max-width: 768px) {";
    "                .footer-container {";
    "                  flex-direction: column;";
    "                  text-align: center;";
    "                  justify-content: center;";
    "                  font-size: 1rem;";
    "                }";
    "              }";
    "            </style>";
    "            ";
    "            <div class=" +:+ dq +:+ "footer-container" +:+ dq +:+ ">";
    "              ";
    "              <div>"
  ].

(** The text of the substitution's line before [${...}]; nothing
    follows the substitution on that line. *)
Definition footer_year_line (year : string) : string :=
  "                Copyright " +:+ copyright_sign +:+ " " +:+ year.

(** The lines after it.  The template closes after the indentation
    of its last line. *)
Definition footer_tail : list string :=
  [
    "                <a href=" +:+ dq +:+ "https://pragnakalp.com" +:+ dq +:+ " target=" +:+ dq +:+ "_blank" +:+ dq +:+ " rel=" +:+ dq +:+ "noopener noreferrer" +:+ dq +:+ " ";
    "                  style=" +:+ dq +:+ "color: #0ea5e9; text-decoration: none; font-weight: 500; margin-left: 0.25rem;" +:+ dq +:+ ">";
    "                  Pragnakalp Techlabs";
    "                </a>. All rights reserved.";
    "              </div>";
    "";
    "              <div>";
    "                <strong>Contributors:</strong> Rahul, Nikunj, Neel, Meet, Dhvanil, Mansi, Darshit";
    "              </div>";
    "";
    "            </div>";
    "          "
  ].

(** [themeConfig.footer.copyright]: the template literal, with
    [${new Date().getFullYear()}] substituted. *)
Definition copyright (c : Clock) : string :=
  String.concat lf
    (footer_head ++ [footer_year_line (toString (getFullYear c))] ++ footer_tail).

(** [const config = {...}].  The clock is read once, when the module
    is evaluated. *)
Definition config (c : Clock) : JSValue :=
  JSObject [
    ("title", JSString "backend-tools-handbook");
    ("tagline", JSString "Comprehensive documentation of essential backend development tools including cURL, Postman, PostgreSQL, Git, Docker, and other utilities used in real-world projects.");
    ("favicon", JSString "img/pk-color-128.png");
    ("future", JSObject [
      ("v4", JSBoolean true)
    ]);
    ("url", JSString "https://pragnakalp.github.io");
    ("baseUrl", JSString "/backend-tools-handbook/");
    ("organizationName", JSString "pragnakalp");
    ("projectName", JSString "backend-tools-handbook");
    ("onBrokenLinks", JSString "throw");
    ("i18n", JSObject [
      ("defaultLocale", JSString "en");
      ("locales", JSArray [JSString "en"])
    ]);
    ("presets", JSArray [
      JSArray [
        JSString "classic";
        JSObject [
          ("docs", JSObject [
            ("sidebarPath", JSString "./sidebars.js");
            ("routeBasePath", JSString "/");
            ("editUrl", JSString "https://github.com/pragnakalp/backend-tools-handbook/tree/main/")
          ]);
          ("blog", JSBoolean false);
          ("theme", JSObject [
            ("customCss", JSString "./src/css/custom.css")
          ])
        ]
      ]
    ]);
    ("themeConfig", JSObject [
      ("colorMode", JSObject [
        ("respectPrefersColorScheme", JSBoolean true)
      ]);
      ("navbar", JSObject [
        ("title", JSString "Backend-tools-handbook");
        ("logo", JSObject [
          ("alt", JSString "backend-tools-handbook Logo");
          ("src", JSString "img/pk-color-128.png")
        ]);
        ("items", JSArray [])
      ]);
      ("footer", JSObject [
        ("style", JSString "dark");
        ("copyright", JSString (copyright c))
      ]);
      ("prism", JSObject [
        ("theme", prismThemes "github");
        ("darkTheme", prismThemes "dracula");
        ("additionalLanguages", JSArray [JSString "python"; JSString "json"])
      ])
    ])
  ].

(** The generator's failure policies are the options named [on...]:
    [onBrokenLinks], [onBrokenAnchors], [onBrokenMarkdownLinks],
    [onDuplicateRoutes]. *)
Definition is_policy_key (k : string) : bool := String.prefix "on" k.

Definition policy_keys (v : JSValue) : list string :=
  filter (fun k => is_policy_key k) (all_keys v).

(** The top-level options, split by whether their value is a scalar. *)
Definition scalar_options (v : JSValue) : list string :=
  match v with
  | JSObject ps => (filter (fun p => is_scalar p.2) ps).*1
  | _ => []
  end.

Definition nested_options (v : JSValue) : list string :=
  match v with
  | JSObject ps => (filter (fun p => is_scalar p.2 = false) ps).*1
  | _ => []
  end.

End Config.

(** ** sidebars.js *)

Module Sidebars.

(** [const sidebars = {...}] *)
Definition sidebars : JSValue :=
  JSObject [
    ("tutorialSidebar", JSArray [
      JSObject [("type", JSString "doc"); ("id", JSString "index"); ("label", JSString "Home")];
      JSObject [
        ("type", JSString "category");
        ("label", JSString "cURL");
        ("items", JSArray [
          JSObject [("type", JSString "doc"); ("id", JSString "CURL_GUIDE"); ("label", JSString "Guide")]
        ])
      ];
      JSObject [
        ("type", JSString "category");
        ("label", JSString "Postman");
        ("items", JSArray [
          JSObject [("type", JSString "doc"); ("id", JSString "POSTMAN_GUIDE_PART1_BASICS"); ("label", JSString "Basics")];
          JSObject [("type", JSString "doc"); ("id", JSString "POSTMAN_GUIDE_PART2_ADVANCED"); ("label", JSString "Advanced")]
        ])
      ];
      JSObject [
        ("type", JSString "category");
        ("label", JSString "Git");
        ("items", JSArray [
          JSObject [("type", JSString "doc"); ("id", JSString "Git_Guide"); ("label", JSString "Guide")]
        ])
      ];
      JSObject [
        ("type", JSString "category");
        ("label", JSString "SQL");
        ("items", JSArray [
          JSObject [("type", JSString "doc"); ("id", JSString "Introduction"); ("label", JSString "00 Introduction")];
          JSObject [("type", JSString "doc"); ("id", JSString "Getting-Started"); ("label", JSString "01 Getting Started")];
          JSObject [("type", JSString "doc"); ("id", JSString "Querying-Data"); ("label", JSString "02 Querying Data")];
          JSObject [("type", JSString "doc"); ("id", JSString "Filtering-Data"); ("label", JSString "03 Filtering Data")];
          JSObject [("type", JSString "doc"); ("id", JSString "Joining-Tables"); ("label", JSString "04 Joining Tables")];
          JSObject [("type", JSString "doc"); ("id", JSString "Grouping-Data"); ("label", JSString "05 Grouping Data")];
          JSObject [("type", JSString "doc"); ("id", JSString "Set-Operations"); ("label", JSString "06 Set Operations")];
          JSObject [("type", JSString "doc"); ("id", JSString "Modifying-Data"); ("label", JSString "07 Modifying Data")];
          JSObject [("type", JSString "doc"); ("id", JSString "Subqueries"); ("label", JSString "08 Subqueries")];
          JSObject [("type", JSString "doc"); ("id", JSString "Data-Types"); ("label", JSString "09 Data Types")];
          JSObject [("type", JSString "doc"); ("id", JSString "Managing-Tables"); ("label", JSString "10 Managing Tables")];
          JSObject [("type", JSString "doc"); ("id", JSString "Constraints"); ("label", JSString "11 Constraints")]
        ])
      ]
    ])
  ].

(** *** The shape of a sidebar

    A sidebar is a sequence of items.  An item is a link to a document
    or a category that holds further items. *)
Unset Elimination Schemes.
Inductive SidebarItem : Type :=
| SidebarDoc (id label : string)
| SidebarCategory (label : string) (items : list SidebarItem).
Set Elimination Schemes.

Definition SidebarItem_nested_ind (P : SidebarItem -> Prop)
    (Hdoc : forall id label, P (SidebarDoc id label))
    (Hcategory : forall label items, Forall P items -> P (SidebarCategory label items)) :
  forall item, P item :=
  fix go (item : SidebarItem) : P item :=
    match item with
    | SidebarDoc id label => Hdoc id label
    | SidebarCategory label items =>
        Hcategory label items
          ((fix children (l : list SidebarItem) : Forall P l :=
              match l with
              | [] => Forall_nil_2 P
              | x :: l' => Forall_cons_2 P x l' (go x) (children l')
              end) items)
    end.

Definition doc_keys : list string := ["type"; "id"; "label"].
Definition category_keys : list string := ["type"; "label"; "items"].

(** When an object literal is an item: a record [{type: 'doc', id,
    label}] or a record [{type: 'category', label, items}] whose
    items are items in turn; no other property is present. *)
Unset Elimination Schemes.
Inductive Conforms : JSValue -> SidebarItem -> Prop :=
| Conforms_doc ps id label :
    assoc "type" ps = Some (JSString "doc") ->
    assoc "id" ps = Some (JSString id) ->
    assoc "label" ps = Some (JSString label) ->
    ps.*1 ⊆ doc_keys ->
    Conforms (JSObject ps) (SidebarDoc id label)
| Conforms_category ps label xs items :
    assoc "type" ps = Some (JSString "category") ->
    assoc "label" ps = Some (JSString label) ->
    assoc "items" ps = Some (JSArray xs) ->
    ps.*1 ⊆ category_keys ->
    Forall2 Conforms xs items ->
    Conforms (JSObject ps) (SidebarCategory label items).
Set Elimination Schemes.

Definition as_string (v : JSValue) : option string :=
  match v with
  | JSString s => Some s
  | _ => None
  end.

Definition only_keys (allowed : list string) (ps : list (string * JSValue)) : bool :=
  forallb (fun k => bool_decide (k ∈ allowed)) ps.*1.

(** The fields of an item, given what its [items] read as (when it
    has an array of items that all read as items). *)
Definition readFields (ps : list (string * JSValue))
    (items : option (list SidebarItem)) : option SidebarItem :=
  ty ← assoc "type" ps ≫= as_string;
  label ← assoc "label" ps ≫= as_string;
  if decide (ty = "doc") then
    id ← assoc "id" ps ≫= as_string;
    if only_keys doc_keys ps then Some (SidebarDoc id label) else None
  else if decide (ty = "category") then
    children ← items;
    if only_keys category_keys ps then Some (SidebarCategory label children) else None
  else None.

(** Reading an item off a value.  The elements of every array-valued
    property are read first, so that the recursion follows the
    structure of the value; the item then takes those of [items]. *)
Fixpoint readItem (v : JSValue) : option SidebarItem :=
  match v with
  | JSObject ps =>
      readFields ps
        (mjoin (assoc "items"
                  ((fun p => (p.1, match p.2 with
                                   | JSArray xs => mapM readItem xs
                                   | _ => None
                                   end)) <$> ps)))
  | _ => None
  end.

Definition readSidebar (v : JSValue) : option (list SidebarItem) :=
  match v with
  | JSArray xs => mapM readItem xs
  | _ => None
  end.

(** [sidebars.tutorialSidebar], read as a sidebar. *)
Definition tutorialSidebar : option (list SidebarItem) :=
  prop "tutorialSidebar" sidebars ≫= readSidebar.

(** *** Reading the tree *)

Definition item_label (item : SidebarItem) : string :=
  match item with
  | SidebarDoc _ label => label
  | SidebarCategory label _ => label
  end.

Definition item_children (item : SidebarItem) : list SidebarItem :=
  match item with
  | SidebarDoc _ _ => []
  | SidebarCategory _ items => items
  end.

Definition is_doc (item : SidebarItem) : bool :=
  match item with
  | SidebarDoc _ _ => true
  | SidebarCategory _ _ => false
  end.

(** An item and everything below it, parents before children and
    siblings in order. *)
Fixpoint nodes_of (item : SidebarItem) : list SidebarItem :=
  item ::
  match item with
  | SidebarDoc _ _ => []
  | SidebarCategory _ items => flat_map nodes_of items
  end.

Definition nodes (root : list SidebarItem) : list SidebarItem :=
  flat_map nodes_of root.

(** The items of every category that carries the given label. *)
Definition categories_labeled (label : string) (root : list SidebarItem) :
    list (list SidebarItem) :=
  item_children <$>
    filter (fun n => is_doc n = false /\ item_label n = label) (nodes root).

(** No two of the siblings carry the same label. *)
Definition distinct_labels (siblings : list SidebarItem) : Prop :=
  forall i j a b,
    siblings !! i = Some a -> siblings !! j = Some b ->
    i <> j -> item_label a <> item_label b.

(** The document ids the leaves refer to, in sidebar order. *)
Definition doc_ids (root : list SidebarItem) : list string :=
  omap (fun n => match n with
                 | SidebarDoc id _ => Some id
                 | SidebarCategory _ _ => None
                 end) (nodes root).

(** A leaf has depth 1, a category one more than its deepest item. *)
Fixpoint item_depth (item : SidebarItem) : nat :=
  match item with
  | SidebarDoc _ _ => 1
  | SidebarCategory _ items => S (foldr (fun x n => Nat.max (item_depth x) n) O items)
  end.

Definition depth (root : list SidebarItem) : nat :=
  foldr (fun x n => Nat.max (item_depth x) n) O root.

End Sidebars.

Import Config Sidebars.

(** ** Loading both modules *)

Module Build.

(** What a build loads: the configuration and the navigation
    descriptor, both evaluated when the build starts. *)
Definition load (c : Clock) : JSValue * JSValue := (config c, sidebars).

(** Two builds one millisecond apart, in UTC: 2025-12-31T23:59:59.999
    and 2026-01-01T00:00:00.000. *)
Definition last_instant_of_2025 : Clock :=
  {| timeValue := 1767225599999; localTZA := 0 |}.

Definition first_instant_of_2026 : Clock :=
  {| timeValue := 1767225600000; localTZA := 0 |}.

(** [config.themeConfig.footer.copyright] *)
Definition copyright_path : list Step :=
  [Key "themeConfig"; Key "footer"; Key "copyright"].

(** The options of the classic preset, [config.presets[0][1]]. *)
Definition preset_options : list Step := [Key "presets"; Idx 0; Idx 1].

End Build.

Import Build.

(** ** The footer markup *)

Module Footer.

(** The fixed text of the footer on either side of the year. *)
Definition footer_before : string :=
  String.concat lf footer_head +:+ lf +:+ footer_year_line "".

Definition footer_after : string := lf +:+ String.concat lf footer_tail.

Definition is_angle (ch : Ascii.ascii) : bool :=
  bool_decide (ch = "<"%char) || bool_decide (ch = ">"%char).

(** Text that opens or closes no tag. *)
Fixpoint plain_text (s : string) : bool :=
  match s with
  | "" => true
  | String ch rest => negb (is_angle ch) && plain_text rest
  end.

(** The name of a tag: its text up to the first space. *)
Fixpoint tag_name (t : string) : string :=
  match t with
  | "" => ""
  | String ch rest => if bool_decide (ch = " "%char) then "" else String ch (tag_name rest)
  end.

(** The open elements after the tag [<t>]: a closing tag must close the
    innermost open element, any other tag opens one. *)
Definition apply_tag (t : string) (open : list string) : option (list string) :=
  match t with
  | String "/" name =>
      match open with
      | top :: below => if decide (top = name) then Some below else None
      | [] => None
      end
  | _ => Some (tag_name t :: open)
  end.

(** Scanning markup: [tag] is the text of the tag being read, if any,
    and [open] the open elements, innermost first.  The markup is well
    nested when every tag is complete and every element closed at the
    end. *)
Fixpoint nested_from (s : string) (tag : option string) (open : list string) : bool :=
  match s with
  | "" =>
      match tag, open with
      | None, [] => true
      | _, _ => false
      end
  | String ch rest =>
      match tag with
      | None =>
          if bool_decide (ch = "<"%char) then nested_from rest (Some "") open
          else if bool_decide (ch = ">"%char) then false
          else nested_from rest None open
      | Some t =>
          if bool_decide (ch = ">"%char) then
            match apply_tag t open with
            | Some open' => nested_from rest None open'
            | None => false
            end
          else if bool_decide (ch = "<"%char) then false
          else nested_from rest (Some (t +:+ String ch "")) open
      end
  end.

Definition well_nested (s : string) : bool := nested_from s None [].

End Footer.

Import Footer.

(** ** The documents *)

Module Docs.

(** The home page, "Tools Training Guide": the tools it lists under
    "Tools Covered". *)
Definition tools_covered : list string := ["cURL"; "Postman"; "Git"; "SQL"].

(** Its "Start here" pointers, [category → item]; the closing list of
    the page repeats the same four. *)
Definition entry_points : list (string * string) :=
  [("cURL", "Guide"); ("Postman", "Basics"); ("Git", "Guide"); ("SQL", "Home")].

(** The "Next Module" link that closes each SQL module: the heading of
    the module and the target of the link.  "Database Constraints" has
    none.  "Introduction to PostgreSQL" is [docs/Introduction.md] and
    "Joining Tables" is [docs/Joining-Tables.md]. *)
Definition next_module_links : list (string * string) :=
  [
    ("Introduction to PostgreSQL", "Getting-Started.md");
    ("Getting Started with PostgreSQL", "Querying-Data.md");
    ("Querying Data", "03-Filtering-Data.md");
    ("Filtering Data", "Joining-Tables.md");
    ("Joining Tables", "Grouping-Data.md");
    ("Grouping Data", "06-Set-Operations.md");
    ("Set Operations", "Modifying-Data.md");
    ("Modifying Data", "08-Subqueries.md");
    ("Subqueries", "09-Data-Types.md");
    ("PostgreSQL Data Types", "10-Managing-Tables.md");
    ("Managing Tables", "Constraints.md")
  ].

Definition is_digit (ch : Ascii.ascii) : bool :=
  (48 <=? Ascii.nat_of_ascii ch)%nat && (Ascii.nat_of_ascii ch <=? 57)%nat.

(** A file name without its two-digit ordering prefix, [NN-]. *)
Definition strip_number_prefix (s : string) : string :=
  match s with
  | String a (String b (String "-" rest)) =>
      if is_digit a && is_digit b then rest else s
  | _ => s
  end.

(** A file name without its [.md] extension. *)
Definition strip_md (s : string) : string :=
  let n := (String.length s - 3)%nat in
  if decide (String.substring n 3 s = ".md") then String.substring 0 n s else s.

(** The document a link to a file names. *)
Definition link_doc_id (target : string) : string :=
  strip_number_prefix (strip_md target).

(** The text of a numbered label, after its two digits and a space. *)
Definition label_text (label : string) : string :=
  String.substring 3 (String.length label - 3) label.

Definition contains (text s : string) : bool :=
  bool_decide (is_Some (String.index 0 text s)).

(** Whether [category → item] names an item of a category of the
    sidebar, by their labels. *)
Definition entry_resolves (root : list SidebarItem) (entry : string * string) : bool :=
  existsb (fun items => bool_decide (entry.2 ∈ item_label <$> items))
          (categories_labeled entry.1 root).

(** The label a numbered track gives the document at position [i]:
    the position in two digits, then the id with spaces for hyphens. *)
Definition digit (n : nat) : string := String (Ascii.ascii_of_nat (48 + n)) "".

Definition two_digits (n : nat) : string := digit (n / 10) +:+ digit (n mod 10).

Fixpoint hyphens_to_spaces (s : string) : string :=
  match s with
  | "" => ""
  | String ch rest =>
      String (if bool_decide (ch = "-"%char) then " "%char else ch) (hyphens_to_spaces rest)
  end.

Definition numbered_label (i : nat) (id : string) : string :=
  two_digits i +:+ " " +:+ hyphens_to_spaces id.

End Docs.

Import Docs.

(** ** Object literals *)

Module Literals.

(** No object literal of the value, at any depth, repeats a key. *)
Fixpoint unique_keys (v : JSValue) : bool :=
  match v with
  | JSArray xs => forallb unique_keys xs
  | JSObject ps => bool_decide (NoDup ps.*1) && forallb (fun p => unique_keys p.2) ps
  | _ => true
  end.

(** Two values agree off a path when they are the same but for what
    the path selects: along the path they have the same keys (or the
    same length), and every property or element off the path is
    equal. *)
Fixpoint agree_off (path : list Step) (v1 v2 : JSValue) : Prop :=
  match path with
  | [] => True
  | Key k0 :: rest =>
      match v1, v2 with
      | JSObject ps, JSObject qs =>
          Forall2 (fun p q =>
                     p.1 = q.1 /\
                     if decide (p.1 = k0) then agree_off rest p.2 q.2 else p.2 = q.2)
                  ps qs
      | _, _ => False
      end
  | Idx i0 :: rest =>
      match v1, v2 with
      | JSArray xs, JSArray ys =>
          length xs = length ys /\
          forall i x y,
            xs !! i = Some x -> ys !! i = Some y ->
            if decide (i = i0) then agree_off rest x y else x = y
      | _, _ => False
      end
  end.

End Literals.

Import Literals.

(** * Properties *)

(** ** The clock *)

Section Clock.

(** A year has 365 or 366 days. *)
Lemma DayFromYear_step (y : Z) :
  365 <= DayFromYear (y + 1) - DayFromYear y <= 366.
Proof. unfold DayFromYear. Z.div_mod_to_equations. lia. Qed.

(** [YearFromTime] is the year ECMAScript defines: the one whose
    first instant is the latest not after [t]. *)
Lemma YearFromTime_spec (t : Z) :
  TimeFromYear (YearFromTime t) <= t < TimeFromYear (YearFromTime t + 1).
Proof.
  unfold YearFromTime, TimeFromYear, Day, DayFromYear, msPerDay.
  repeat case_match;
    rewrite ?Z.ltb_lt, ?Z.ltb_ge, ?Z.leb_le, ?Z.leb_gt in *;
    Z.div_mod_to_equations; lia.
Qed.

Lemma TimeFromYear_mono (y y' : Z) :
  y <= y' -> TimeFromYear y <= TimeFromYear y'.
Proof.
  unfold TimeFromYear, DayFromYear, msPerDay. intros Hle.
  Z.div_mod_to_equations. lia.
Qed.

(** The year is determined by that property. *)
Lemma YearFromTime_unique (t y : Z) :
  TimeFromYear y <= t < TimeFromYear (y + 1) -> YearFromTime t = y.
Proof.
  intros [Hlo Hhi]. destruct (YearFromTime_spec t) as [Hlo' Hhi'].
  destruct (Z.lt_trichotomy (YearFromTime t) y) as [Hlt | [Heq | Hgt]]; [| done |].
  - pose proof (TimeFromYear_mono (YearFromTime t + 1) y). lia.
  - pose proof (TimeFromYear_mono (y + 1) (YearFromTime t)). lia.
Qed.

(** Two instants of one year, whatever their distance. *)
Lemma getFullYear_same_year (c1 c2 : Clock) (y : Z) :
  TimeFromYear y <= LocalTime c1 < TimeFromYear (y + 1) ->
  TimeFromYear y <= LocalTime c2 < TimeFromYear (y + 1) ->
  getFullYear c1 = getFullYear c2.
Proof.
  intros H1 H2. unfold getFullYear.
  by rewrite (YearFromTime_unique _ y H1), (YearFromTime_unique _ y H2).
Qed.

Lemma to_int_not_nil (n : Z) :
  Z.to_int n <> Decimal.Pos Decimal.Nil /\ Z.to_int n <> Decimal.Neg Decimal.Nil.
Proof.
  split; intros Heq; pose proof (DecimalZ.of_to n) as Hn;
    rewrite Heq in Hn; cbn in Hn; subst n; discriminate Heq.
Qed.

(** Different integers print differently. *)
Lemma toString_inj (n m : Z) : toString n = toString m -> n = m.
Proof.
  unfold toString. intros Heq.
  destruct (to_int_not_nil n) as [Hn1 Hn2], (to_int_not_nil m) as [Hm1 Hm2].
  pose proof (NilZero.isi _ Hn1 Hn2) as Hn.
  pose proof (NilZero.isi _ Hm1 Hm2) as Hm.
  rewrite Heq, Hm in Hn. injection Hn as Hn.
  by rewrite <- (DecimalZ.of_to n), <- (DecimalZ.of_to m), Hn.
Qed.

End Clock.

(** ** Strings *)

Section Strings.

Lemma list_ascii_of_string_app (a b : string) :
  String.list_ascii_of_string (a +:+ b) =
  (String.list_ascii_of_string a ++ String.list_ascii_of_string b)%list.
Proof. induction a as [| ch a IH]; simpl; [done | by f_equal]. Qed.

Lemma list_ascii_of_string_inj (a b : string) :
  String.list_ascii_of_string a = String.list_ascii_of_string b -> a = b.
Proof.
  intros Heq.
  rewrite <- (String.string_of_list_ascii_of_string a),
          <- (String.string_of_list_ascii_of_string b).
  by rewrite Heq.
Qed.

Lemma append_inv_tail (a b s : string) : a +:+ s = b +:+ s -> a = b.
Proof.
  intros Heq. apply list_ascii_of_string_inj.
  apply (f_equal String.list_ascii_of_string) in Heq.
  rewrite !list_ascii_of_string_app in Heq.
  by apply app_inv_tail in Heq.
Qed.

Lemma append_inv_head (p a b : string) : p +:+ a = p +:+ b -> a = b.
Proof. apply String.app_inj. Qed.

End Strings.

(** ** The footer *)

Section Footer.

(** The configuration holds the footer where the source puts it. *)
Lemma select_copyright (c : Clock) :
  select copyright_path (config c) = Some (JSString (copyright c)).
Proof. reflexivity. Qed.

(** The footer is fixed text around the printed year. *)
Lemma copyright_year (c : Clock) :
  copyright c =
  (String.concat lf footer_head +:+ lf +:+ footer_year_line "")
    +:+ toString (getFullYear c) +:+ (lf +:+ String.concat lf footer_tail).
Proof.
  unfold copyright. generalize (toString (getFullYear c)) as year.
  intros year. vm_compute. reflexivity.
Qed.

Lemma copyright_inj (c1 c2 : Clock) :
  copyright c1 = copyright c2 -> getFullYear c1 = getFullYear c2.
Proof.
  rewrite !copyright_year. intros Heq.
  apply append_inv_head, append_inv_tail in Heq.
  by apply toString_inj.
Qed.

Lemma config_year (c1 c2 : Clock) :
  config c1 = config c2 <-> getFullYear c1 = getFullYear c2.
Proof.
  split.
  - intros Heq. apply copyright_inj.
    pose proof (select_copyright c1) as H1.
    rewrite Heq, select_copyright in H1. congruence.
  - intros Heq. unfold config, copyright. by rewrite Heq.
Qed.

End Footer.

(** ** Reading a sidebar *)

(** Settles a decidable statement about the source's literals by
    evaluating its decision procedure. *)
Ltac by_evaluation := apply (bool_decide_unpack _); vm_compute; exact I.

Section Reading.

Lemma assoc_fmap {A B : Type} (f : A -> B) (g : string * A -> string * B)
    (k : string) (ps : list (string * A)) :
  (forall p, g p = (p.1, f p.2)) ->
  assoc k (g <$> ps) = f <$> assoc k ps.
Proof.
  intros Hg. induction ps as [| [k' x] ps IH]; [done |].
  cbn. rewrite IH, Hg. cbn. destruct (assoc k ps); [done |].
  by destruct (decide (k = k')).
Qed.

Lemma assoc_elem_of {A : Type} (k : string) (ps : list (string * A)) (x : A) :
  assoc k ps = Some x -> (k, x) ∈ ps.
Proof.
  induction ps as [| [k' y] ps IH]; [done |].
  cbn. destruct (assoc k ps) as [z |].
  - intros [= ->]. right. by apply IH.
  - destruct (decide (k = k')) as [-> |]; [| done].
    intros [= ->]. left.
Qed.

Lemma as_string_Some (o : option JSValue) (s : string) :
  o ≫= as_string = Some s -> o = Some (JSString s).
Proof. destruct o as [[] |]; cbn; congruence. Qed.

Lemma only_keys_subseteq (allowed : list string) (ps : list (string * JSValue)) :
  only_keys allowed ps = true -> ps.*1 ⊆ allowed.
Proof.
  unfold only_keys. rewrite forallb_forall. intros Hall k Hk.
  apply list_elem_of_In, Hall in Hk. by apply bool_decide_eq_true in Hk.
Qed.

(** What an object reads as, in terms of its own [items]. *)
Lemma readItem_object (ps : list (string * JSValue)) :
  readItem (JSObject ps) =
  readFields ps
    (assoc "items" ps ≫= fun x => match x with
                                   | JSArray xs => mapM readItem xs
                                   | _ => None
                                   end).
Proof.
  cbn [readItem].
  rewrite (assoc_fmap (fun x => match x with
                                | JSArray xs => mapM readItem xs
                                | _ => None
                                end)) by done.
  by destruct (assoc "items" ps).
Qed.

Lemma readFields_sound (ps : list (string * JSValue))
    (items : option (list SidebarItem)) (item : SidebarItem) :
  readFields ps items = Some item ->
  (exists id label,
     item = SidebarDoc id label /\
     assoc "type" ps = Some (JSString "doc") /\
     assoc "id" ps = Some (JSString id) /\
     assoc "label" ps = Some (JSString label) /\
     ps.*1 ⊆ doc_keys) \/
  (exists label children,
     item = SidebarCategory label children /\
     items = Some children /\
     assoc "type" ps = Some (JSString "category") /\
     assoc "label" ps = Some (JSString label) /\
     ps.*1 ⊆ category_keys).
Proof.
  unfold readFields.
  destruct (assoc "type" ps ≫= as_string) as [ty |] eqn:Hty; [| done].
  destruct (assoc "label" ps ≫= as_string) as [label |] eqn:Hlabel; [| done].
  apply as_string_Some in Hty, Hlabel. cbn.
  destruct (decide (ty = "doc")) as [-> | _].
  - destruct (assoc "id" ps ≫= as_string) as [id |] eqn:Hid; [| done].
    apply as_string_Some in Hid. cbn.
    destruct (only_keys doc_keys ps) eqn:Hkeys; [| done].
    intros [= <-]. left. exists id, label.
    repeat split; auto using only_keys_subseteq.
  - destruct (decide (ty = "category")) as [-> | _]; [| done].
    destruct items as [children |]; [| done]. cbn.
    destruct (only_keys category_keys ps) eqn:Hkeys; [| done].
    intros [= <-]. right. exists label, children.
    repeat split; auto using only_keys_subseteq.
Qed.

Lemma mapM_readItem_Forall2 (xs : list JSValue) (items : list SidebarItem) :
  Forall (fun x => forall item, readItem x = Some item -> Conforms x item) xs ->
  mapM readItem xs = Some items -> Forall2 Conforms xs items.
Proof.
  intros Hall Hm. apply mapM_Some_1 in Hm.
  induction Hm as [| x item xs items Hx _ IH]; [constructor |].
  apply Forall_cons_1 in Hall as [Hhd Htl].
  constructor; [by apply Hhd | by apply IH].
Qed.

Lemma readItem_sound (v : JSValue) (item : SidebarItem) :
  readItem v = Some item -> Conforms v item.
Proof.
  revert item.
  cut ((forall item, readItem v = Some item -> Conforms v item) /\
       (forall xs items, v = JSArray xs ->
          mapM readItem xs = Some items -> Forall2 Conforms xs items)).
  { intros [H _]. exact H. }
  induction v as [s | b | xs IH | ps IH | m path] using JSValue_nested_ind;
    (split; [intros item | intros ys items]); try (intros; discriminate).
  - intros [= <-]. apply mapM_readItem_Forall2.
    eapply Forall_impl; [exact IH |]. by intros x [Hx _].
  - rewrite readItem_object. intros Hread.
    apply readFields_sound in Hread
      as [(id & label & -> & Hty & Hid & Hlabel & Hkeys)
         | (label & children & -> & Hitems & Hty & Hlabel & Hkeys)].
    + by constructor.
    + destruct (assoc "items" ps) as [[| | xs | |] |] eqn:Hxs; try done.
      cbn in Hitems. pose proof (assoc_elem_of _ _ _ Hxs) as Hin.
      rewrite Forall_forall in IH. destruct (IH _ Hin) as [_ Harr].
      econstructor; eauto.
Qed.

Lemma subseteq_only_keys (allowed : list string) (ps : list (string * JSValue)) :
  ps.*1 ⊆ allowed -> only_keys allowed ps = true.
Proof.
  intros Hsub. unfold only_keys. apply forallb_forall. intros k Hk.
  apply bool_decide_eq_true, Hsub, list_elem_of_In, Hk.
Qed.

Lemma readItem_complete (v : JSValue) (item : SidebarItem) :
  Conforms v item -> readItem v = Some item.
Proof.
  revert v.
  induction item as [id label | label items IH] using SidebarItem_nested_ind;
    intros v Hv; inversion Hv as [ps ? ? Hty Hid Hlabel Hkeys
                                 | ps ? xs ? Hty Hlabel Hitems Hkeys Hall]; subst;
    rewrite readItem_object; unfold readFields;
    rewrite Hty, Hlabel; cbn.
  - case_decide; [| done]. rewrite Hid. cbn. by rewrite subseteq_only_keys.
  - case_decide; [done |]. case_decide; [| done]. rewrite Hitems. cbn.
    assert (mapM readItem xs = Some items) as ->.
    { apply mapM_Some_2. clear -IH Hall.
      induction Hall as [| x item xs items Hx _ IHall]; [constructor |].
      apply Forall_cons_1 in IH as [Hhd Htl].
      constructor; [by apply Hhd | by apply IHall]. }
    cbn. by rewrite subseteq_only_keys.
Qed.



Lemma readSidebar_sound (v : JSValue) (items : list SidebarItem) :
  readSidebar v = Some items ->
  exists xs, v = JSArray xs /\ Forall2 Conforms xs items.
Proof.
  destruct v as [| | xs | |]; try discriminate. cbn. intros Hm.
  exists xs. split; [done |]. apply mapM_readItem_Forall2; [| done].
  apply Forall_forall. intros x _ item. apply readItem_sound.
Qed.

(** The tree that [sidebars.tutorialSidebar] reads as. *)
Lemma tutorialSidebar_tree :
  tutorialSidebar = Some [
    SidebarDoc "index" "Home";
    SidebarCategory "cURL" [SidebarDoc "CURL_GUIDE" "Guide"];
    SidebarCategory "Postman" [
      SidebarDoc "POSTMAN_GUIDE_PART1_BASICS" "Basics";
      SidebarDoc "POSTMAN_GUIDE_PART2_ADVANCED" "Advanced"];
    SidebarCategory "Git" [SidebarDoc "Git_Guide" "Guide"];
    SidebarCategory "SQL" [
      SidebarDoc "Introduction" "00 Introduction";
      SidebarDoc "Getting-Started" "01 Getting Started";
      SidebarDoc "Querying-Data" "02 Querying Data";
      SidebarDoc "Filtering-Data" "03 Filtering Data";
      SidebarDoc "Joining-Tables" "04 Joining Tables";
      SidebarDoc "Grouping-Data" "05 Grouping Data";
      SidebarDoc "Set-Operations" "06 Set Operations";
      SidebarDoc "Modifying-Data" "07 Modifying Data";
      SidebarDoc "Subqueries" "08 Subqueries";
      SidebarDoc "Data-Types" "09 Data Types";
      SidebarDoc "Managing-Tables" "10 Managing Tables";
      SidebarDoc "Constraints" "11 Constraints"]
  ].
Proof. vm_compute. reflexivity. Qed.

(** Pairwise distinct labels, as a list without duplicates. *)
Lemma distinct_labels_NoDup (siblings : list SidebarItem) :
  distinct_labels siblings <-> NoDup (item_label <$> siblings).
Proof.
  rewrite NoDup_alt. unfold distinct_labels. split.
  - intros Hd i j l Hi Hj. destruct (decide (i = j)) as [| Hne]; [done |].
    rewrite list_lookup_fmap in Hi, Hj.
    destruct (siblings !! i) as [a |] eqn:Ha; [| done].
    destruct (siblings !! j) as [b |] eqn:Hb; [| done].
    cbn in Hi, Hj. destruct (Hd i j a b Ha Hb Hne). congruence.
  - intros Hn i j a b Ha Hb Hne Heq. apply Hne.
    apply (Hn i j (item_label a)); rewrite list_lookup_fmap.
    + by rewrite Ha.
    + by rewrite Hb, Heq.
Qed.

(** The documents the leaves link to, each of them once. *)
Lemma tutorialSidebar_doc_ids :
  doc_ids <$> tutorialSidebar = Some [
    "index"; "CURL_GUIDE"; "POSTMAN_GUIDE_PART1_BASICS";
    "POSTMAN_GUIDE_PART2_ADVANCED"; "Git_Guide"; "Introduction";
    "Getting-Started"; "Querying-Data"; "Filtering-Data"; "Joining-Tables";
    "Grouping-Data"; "Set-Operations"; "Modifying-Data"; "Subqueries";
    "Data-Types"; "Managing-Tables"; "Constraints"
  ] /\
  from_option (fun root => NoDup (doc_ids root)) False tutorialSidebar.
Proof.
  rewrite tutorialSidebar_tree. split; [reflexivity |].
  by_evaluation.
Qed.

End Reading.

(** ** The navigation descriptor *)

(** C4: every node of the navigation descriptor has the shape the
    generator expects.  [sidebars.tutorialSidebar] is an array, and it
    reads as a sequence of items: each element is a record
    [{type: 'doc', id, label}] or a record [{type: 'category', label,
    items}] whose items have that shape in turn. *)
Theorem tutorialSidebar_conforms :
  exists xs items,
    prop "tutorialSidebar" sidebars = Some (JSArray xs) /\
    tutorialSidebar = Some items /\
    Forall2 Conforms xs items.
Proof.
  pose proof tutorialSidebar_tree as Htree.
  unfold tutorialSidebar in Htree.
  destruct (prop "tutorialSidebar" sidebars) as [v |] eqn:Hprop; [| done].
  cbn in Htree. destruct (readSidebar_sound _ _ Htree) as (xs & -> & Hall).
  eexists xs, _. split; [reflexivity |]. split; [| exact Hall].
  unfold tutorialSidebar. rewrite Hprop. exact Htree.
Qed.

(** C5: exactly one category of the navigation descriptor is labeled
    'SQL', and its items begin with the documents Introduction,
    Getting-Started and Querying-Data, in that order. *)
Theorem sql_category_order :
  exists root rest,
    tutorialSidebar = Some root /\
    categories_labeled "SQL" root =
      [SidebarDoc "Introduction" "00 Introduction"
       :: SidebarDoc "Getting-Started" "01 Getting Started"
       :: SidebarDoc "Querying-Data" "02 Querying Data"
       :: rest].
Proof.
  eexists _, _. split; [apply tutorialSidebar_tree |].
  vm_compute. reflexivity.
Qed.

(** C6: sibling labels are pairwise distinct at every level of the
    navigation tree: among the root sequence, and among the direct
    children of every node. *)
Theorem sibling_labels_distinct :
  exists root,
    tutorialSidebar = Some root /\
    distinct_labels root /\
    forall n, n ∈ nodes root -> distinct_labels (item_children n).
Proof.
  eexists. split; [apply tutorialSidebar_tree |]. split.
  - apply distinct_labels_NoDup. by_evaluation.
  - apply Forall_forall.
    eapply Forall_impl; [| intros n Hn; apply distinct_labels_NoDup, Hn].
    by_evaluation.
Qed.

(** C8: the navigation tree has depth two.  The only leaf at the top
    level is the one for 'index'; every other top-level entry is a
    category, and the items of a category are all leaves. *)
Theorem sidebar_depth_two :
  exists root,
    tutorialSidebar = Some root /\
    depth root = 2%nat /\
    filter (fun n => is_doc n) root = [SidebarDoc "index" "Home"] /\
    Forall (fun n => match n with
                     | SidebarDoc id _ => id = "index"
                     | SidebarCategory _ items => Forall (fun i => is_doc i) items
                     end) root.
Proof.
  eexists. split; [apply tutorialSidebar_tree |].
  split; [reflexivity |]. split; [reflexivity |].
  repeat (constructor; try done).
Qed.

(** ** The site configuration *)

(** C3: the configuration sets [onBrokenLinks] to ['throw'], and no
    other failure policy is set anywhere in the configuration or in
    the navigation descriptor: [onBrokenLinks] is the only option named
    [on...] at any depth of either module. *)
Theorem onBrokenLinks_only_policy (c : Clock) :
  prop "onBrokenLinks" (config c) = Some (JSString "throw") /\
  policy_keys (config c) = ["onBrokenLinks"] /\
  policy_keys sidebars = [].
Proof. repeat split; vm_compute; reflexivity. Qed.

(** C9: the internationalization options are consistent.  The default
    locale is 'en', the list of locales is ['en'], and the default
    locale is one of the listed locales. *)
Theorem i18n_consistent (c : Clock) :
  exists (defaultLocale : JSValue) (locales : list JSValue),
    select [Key "i18n"; Key "defaultLocale"] (config c) = Some defaultLocale /\
    select [Key "i18n"; Key "locales"] (config c) = Some (JSArray locales) /\
    defaultLocale = JSString "en" /\
    locales = [JSString "en"] /\
    defaultLocale ∈ locales.
Proof.
  eexists _, _. repeat split; try reflexivity. apply list_elem_of_singleton. reflexivity.
Qed.

(** C10: the configuration declares no navigation besides the sidebar.
    The navbar has no items, the blog is switched off, and the docs,
    whose sidebar is [./sidebars.js], are mounted at the site root; the
    footer object has no [links] property. *)
Theorem sidebar_only_navigation (c : Clock) :
  select [Key "themeConfig"; Key "navbar"; Key "items"] (config c) = Some (JSArray []) /\
  select (preset_options ++ [Key "blog"]) (config c) = Some (JSBoolean false) /\
  select (preset_options ++ [Key "docs"; Key "routeBasePath"]) (config c)
    = Some (JSString "/") /\
  select (preset_options ++ [Key "docs"; Key "sidebarPath"]) (config c)
    = Some (JSString "./sidebars.js") /\
  select [Key "themeConfig"; Key "footer"; Key "links"] (config c) = None.
Proof. repeat split; reflexivity. Qed.

(** C7, as the code has it: the configuration is a nested record, not
    a flat one.  Eight of its twelve options are scalars and four hold
    records or arrays.  Title and URLs are top-level scalars; the theme
    flag, the footer HTML and the highlighted languages sit inside
    [themeConfig].  The record names the navigation descriptor by
    path, at [presets[0][1].docs.sidebarPath]; the paths it writes
    relative to the module are that one and the stylesheet's. *)
Theorem config_nested_record (c : Clock) :
  scalar_options (config c) =
    ["title"; "tagline"; "favicon"; "url"; "baseUrl";
     "organizationName"; "projectName"; "onBrokenLinks"] /\
  nested_options (config c) = ["future"; "i18n"; "presets"; "themeConfig"] /\
  prop "title" (config c) = Some (JSString "backend-tools-handbook") /\
  prop "url" (config c) = Some (JSString "https://pragnakalp.github.io") /\
  prop "baseUrl" (config c) = Some (JSString "/backend-tools-handbook/") /\
  select [Key "themeConfig"; Key "colorMode"; Key "respectPrefersColorScheme"] (config c)
    = Some (JSBoolean true) /\
  select copyright_path (config c) = Some (JSString (copyright c)) /\
  select [Key "themeConfig"; Key "prism"; Key "additionalLanguages"] (config c)
    = Some (JSArray [JSString "python"; JSString "json"]) /\
  select (preset_options ++ [Key "docs"; Key "sidebarPath"]) (config c)
    = Some (JSString "./sidebars.js") /\
  file_references (config c) = ["./sidebars.js"; "./src/css/custom.css"].
Proof. repeat split; try reflexivity; vm_compute; reflexivity. Qed.

(** C7, as stated, fails: the record is not flat, and it names the
    file of the navigation descriptor. *)
Lemma config_not_flat :
  ~ (is_flat (config first_instant_of_2026) = true /\
     file_references (config first_instant_of_2026) = []).
Proof. intros [Hflat _]. vm_compute in Hflat. discriminate Hflat. Qed.

(** C2, as the code has it: the navigation descriptor is the same at
    every load, and two loads yield the same configuration exactly
    when they happen in the same calendar year of local time. *)
Theorem load_same_within_year (c1 c2 : Clock) :
  (load c1).2 = (load c2).2 /\
  ((load c1).1 = (load c2).1 <-> getFullYear c1 = getFullYear c2).
Proof. split; [reflexivity | apply config_year]. Qed.

(** C2, as stated, fails: two loads one millisecond apart, on either
    side of the new year, yield different configurations. *)
Lemma load_differs_across_new_year :
  load last_instant_of_2025 <> load first_instant_of_2026.
Proof.
  intros Heq. apply (f_equal fst) in Heq. cbn [load fst] in Heq.
  apply config_year in Heq. vm_compute in Heq. discriminate Heq.
Qed.

(** ** The footer, whatever the year *)

Section FooterText.

Lemma copyright_text (c : Clock) :
  copyright c = footer_before +:+ toString (getFullYear c) +:+ footer_after.
Proof. apply copyright_year. Qed.

(** Plain text between tags leaves the open elements as they are. *)
Lemma nested_from_plain (s rest : string) (open : list string) :
  plain_text s = true ->
  nested_from (s +:+ rest) None open = nested_from rest None open.
Proof.
  induction s as [| ch s IH]; [done |]. intros Hplain.
  change (plain_text (String ch s)) with (negb (is_angle ch) && plain_text s) in Hplain.
  apply andb_true_iff in Hplain as [Hch Hs].
  apply negb_true_iff, orb_false_iff in Hch as [Hlt Hgt].
  change (nested_from (String ch s +:+ rest) None open) with
    (if bool_decide (ch = "<"%char) then nested_from (s +:+ rest) (Some "") open
     else if bool_decide (ch = ">"%char) then false
     else nested_from (s +:+ rest) None open).
  rewrite Hlt, Hgt. by apply IH.
Qed.

Lemma string_of_uint_plain (d : Decimal.uint) :
  plain_text (NilEmpty.string_of_uint d) = true.
Proof. induction d; cbn; done. Qed.

(** A printed integer is digits and at most a sign. *)
Lemma toString_plain (n : Z) : plain_text (toString n) = true.
Proof.
  unfold toString.
  destruct (Z.to_int n) as [d | d]; cbn [NilZero.string_of_int];
    [| cbn [plain_text]; apply andb_true_iff; split; [done |]];
    (destruct d; [done | apply string_of_uint_plain ..]).
Qed.

(** The footer up to the year leaves two [div] elements open. *)
Lemma nested_from_footer_before (rest : string) :
  nested_from (footer_before +:+ rest) None [] = nested_from rest None ["div"; "div"].
Proof. vm_compute. reflexivity. Qed.

End FooterText.

(** X4: whatever the clock, the footer markup is well nested: every
    tag is complete, every closing tag closes the innermost open
    element, and no element is left open. *)
Theorem footer_well_nested (c : Clock) : well_nested (copyright c) = true.
Proof.
  rewrite copyright_text. unfold well_nested.
  rewrite nested_from_footer_before, nested_from_plain by apply toString_plain.
  vm_compute. reflexivity.
Qed.


(** ** What the clock reaches *)

Section ClockFrame.

(** Lookup in two property lists that agree off the key [k0]. *)
Lemma assoc_agree_off (k0 k : string) (rest : list Step)
    (ps qs : list (string * JSValue)) :
  Forall2 (fun p q =>
             p.1 = q.1 /\
             if decide (p.1 = k0) then agree_off rest p.2 q.2 else p.2 = q.2) ps qs ->
  (k <> k0 -> assoc k ps = assoc k qs) /\
  (k = k0 -> option_Forall2 (agree_off rest) (assoc k ps) (assoc k qs)).
Proof.
  induction 1 as [| [k1 x] [k2 y] ps qs [Hkey Hval] _ [IHne IHeq]]; cbn in *.
  { split; [done | constructor]. }
  subst k2. split.
  - intros Hne. rewrite (IHne Hne). destruct (assoc k qs); [done |].
    destruct (decide (k = k1)) as [-> |]; [| done].
    by rewrite decide_False in Hval by done; subst.
  - intros ->. destruct (IHeq eq_refl) as [x' y' Hxy |]; [by constructor |].
    destruct (decide (k0 = k1)) as [<- |]; [| constructor].
    rewrite decide_True in Hval by done. by constructor.
Qed.

(** A path that parts from [path] selects the same from two values
    that agree off [path]. *)
Lemma select_agree_off (path p : list Step) (v1 v2 : JSValue) :
  agree_off path v1 v2 ->
  ~ p `prefix_of` path -> ~ path `prefix_of` p ->
  select p v1 = select p v2.
Proof.
  revert p v1 v2.
  induction path as [| st path IH]; intros p v1 v2 Hagree Hp Hpath.
  { destruct Hpath. apply prefix_nil. }
  destruct p as [| st' p]; [destruct Hp; apply prefix_nil |].
  assert (st' = st -> ~ p `prefix_of` path /\ ~ path `prefix_of` p) as Hrest.
  { intros ->. split; intros Hpre; [apply Hp | apply Hpath]; by apply prefix_cons. }
  destruct st as [k0 | i0]; cbn [agree_off] in Hagree.
  - destruct v1 as [| | | ps |], v2 as [| | | qs |]; try done.
    destruct st' as [k | i]; [| done]. cbn [select prop].
    destruct (assoc_agree_off k0 k path ps qs Hagree) as [Hne Heq].
    destruct (decide (k = k0)) as [-> | Hk]; [| by rewrite Hne].
    destruct (Hrest eq_refl) as [Hp' Hpath'].
    destruct (Heq eq_refl) as [x y Hxy |]; [| done]. cbn. by apply IH.
  - destruct v1 as [| | xs | |], v2 as [| | ys | |]; try done.
    destruct Hagree as [Hlen Helems].
    destruct st' as [k | i]; [done |]. cbn [select elem].
    destruct (xs !! i) as [x |] eqn:Hx, (ys !! i) as [y |] eqn:Hy; cbn.
    + specialize (Helems i x y Hx Hy).
      destruct (decide (i = i0)) as [-> | Hi]; [| by subst].
      destruct (Hrest eq_refl) as [Hp' Hpath']. by apply IH.
    + apply lookup_lt_Some in Hx. apply lookup_ge_None in Hy. lia.
    + apply lookup_lt_Some in Hy. apply lookup_ge_None in Hx. lia.
    + done.
Qed.

(** Proves [agree_off] between two object literals that differ in one
    place: entry by entry, descending where the key is on the path. *)
Ltac agree_entries :=
  lazymatch goal with
  | |- True => exact I
  | |- Forall2 _ [] [] => apply Forall2_nil_2
  | |- Forall2 _ (_ :: _) (_ :: _) =>
      apply Forall2_cons_2;
      [ cbn [fst snd]; split;
        [ reflexivity
        | let Hk := fresh "Hk" in
          case_decide as Hk;
          [ first [discriminate Hk | cbn [snd]; agree_entries]
          | first [reflexivity | destruct Hk; reflexivity] ] ]
      | agree_entries ]
  end.

(** Two evaluations of the configuration agree off the footer's
    copyright. *)
Lemma config_agree_off (c1 c2 : Clock) :
  agree_off copyright_path (config c1) (config c2).
Proof. unfold config, copyright_path. cbn [agree_off]. agree_entries. Qed.

End ClockFrame.

(** X1: the clock reaches nothing but the footer's copyright.  A chain
    of member accesses that parts from [themeConfig.footer.copyright],
    being neither a prefix of that path nor a continuation of it,
    yields the same at any two evaluations of the configuration. *)
Theorem clock_reaches_only_copyright (c1 c2 : Clock) (p : list Step) :
  ~ p `prefix_of` copyright_path ->
  ~ copyright_path `prefix_of` p ->
  select p (config c1) = select p (config c2).
Proof.
  intros Hp Hpath.
  apply (select_agree_off copyright_path); [apply config_agree_off | done ..].
Qed.

Lemma clock_reaches_only_copyright_witness :
  select [Key "themeConfig"; Key "footer"; Key "style"] (config last_instant_of_2025) =
  select [Key "themeConfig"; Key "footer"; Key "style"] (config first_instant_of_2026).
Proof.
  apply (clock_reaches_only_copyright _ _ [Key "themeConfig"; Key "footer"; Key "style"]);
    intros [q Hq]; discriminate Hq.
Defined.

(** X2: the footer prints the calendar year of the build in local
    time.  When the local time of the evaluation lies in year [y], the
    copyright is the fixed text with [y] in decimal after the copyright
    sign. *)
Theorem footer_prints_local_year (c : Clock) (y : Z) :
  TimeFromYear y <= LocalTime c < TimeFromYear (y + 1) ->
  select copyright_path (config c)
    = Some (JSString (footer_before +:+ toString y +:+ footer_after)).
Proof.
  intros Hyear. rewrite select_copyright, copyright_text.
  unfold getFullYear. by rewrite (YearFromTime_unique _ y Hyear).
Qed.

Lemma footer_prints_local_year_witness :
  select copyright_path (config first_instant_of_2026)
    = Some (JSString (footer_before +:+ "2026" +:+ footer_after)).
Proof.
  apply (footer_prints_local_year first_instant_of_2026 2026).
  vm_compute. split; [discriminate | reflexivity].
Defined.

(** X3: the printed year depends on the time zone of the machine.  In
    the last millisecond of any year [y - 1] in UTC, an evaluation in
    UTC prints [y - 1] and one in UTC+01:00 prints [y], so the two
    configurations differ. *)
Theorem new_year_in_two_zones (y : Z) :
  let utc := {| timeValue := TimeFromYear y - 1; localTZA := 0 |} in
  let utc_plus_1 := {| timeValue := TimeFromYear y - 1; localTZA := 3600000 |} in
  getFullYear utc = y - 1 /\
  getFullYear utc_plus_1 = y /\
  config utc <> config utc_plus_1.
Proof.
  intros utc utc_plus_1.
  assert (getFullYear utc = y - 1) as Hutc.
  { apply YearFromTime_unique. unfold utc, LocalTime. cbn [timeValue localTZA].
    replace (y - 1 + 1) with y by lia.
    pose proof (DayFromYear_step (y - 1)) as Hstep.
    replace (y - 1 + 1) with y in Hstep by lia.
    unfold TimeFromYear, msPerDay. lia. }
  assert (getFullYear utc_plus_1 = y) as Hplus.
  { apply YearFromTime_unique. unfold utc_plus_1, LocalTime. cbn [timeValue localTZA].
    pose proof (DayFromYear_step y) as Hstep.
    unfold TimeFromYear, msPerDay. lia. }
  split; [done |]. split; [done |].
  rewrite config_year, Hutc, Hplus. lia.
Qed.

(** X5: no object literal of the configuration or of the navigation
    descriptor repeats a key, at any depth; no property is shadowed by
    a later one. *)
Theorem literals_repeat_no_key (c : Clock) :
  unique_keys (config c) = true /\ unique_keys sidebars = true.
Proof. split; vm_compute; reflexivity. Qed.

(** X6: the sidebar links seventeen documents, each of them from one
    leaf only. *)
Theorem each_document_linked_once :
  exists root,
    tutorialSidebar = Some root /\
    length (doc_ids root) = 17%nat /\
    NoDup (doc_ids root).
Proof.
  eexists. split; [apply tutorialSidebar_tree |]. split; [reflexivity |].
  by_evaluation.
Qed.

(** X7: every entry of the SQL category is labeled with its position,
    in two digits from 00, followed by its document id with spaces for
    hyphens. *)
Theorem sql_labels_numbered :
  exists root sql,
    tutorialSidebar = Some root /\
    categories_labeled "SQL" root = [sql] /\
    forall i item,
      sql !! i = Some item ->
      exists id, item = SidebarDoc id (numbered_label i id).
Proof.
  eexists _, _. split; [apply tutorialSidebar_tree |].
  split; [vm_compute; reflexivity |].
  intros i item Hi.
  do 12 (destruct i as [| i];
         [injection Hi as <-;
          lazymatch goal with
          | |- exists _, SidebarDoc ?id _ = _ => exists id; vm_compute; reflexivity
          end |]).
  discriminate Hi.
Qed.

(** X8: the addresses of the configuration follow from the
    organization and the project: the title is the project name, the
    site is served from [https://<org>.github.io] under [/<project>/],
    and pages are edited at the project's tree on GitHub. *)
Theorem github_pages_addresses (c : Clock) :
  exists org project,
    prop "organizationName" (config c) = Some (JSString org) /\
    prop "projectName" (config c) = Some (JSString project) /\
    prop "title" (config c) = Some (JSString project) /\
    prop "url" (config c) = Some (JSString ("https://" +:+ org +:+ ".github.io")) /\
    prop "baseUrl" (config c) = Some (JSString ("/" +:+ project +:+ "/")) /\
    select (preset_options ++ [Key "docs"; Key "editUrl"]) (config c)
      = Some (JSString ("https://github.com/" +:+ org +:+ "/" +:+ project +:+ "/tree/main/")).
Proof. eexists _, _. repeat split; reflexivity. Qed.

(** X9: the "Next Module" link that closes the i-th SQL module names
    the entry that follows it in the sidebar: the module's heading
    contains the text of the i-th label, and the link's target, without
    [.md] and without a two-digit prefix, is the id of entry i + 1.
    The last entry, Constraints, is the only one without such a link. *)
Theorem next_module_follows_sidebar :
  exists root sql,
    tutorialSidebar = Some root /\
    categories_labeled "SQL" root = [sql] /\
    S (length next_module_links) = length sql /\
    forall i heading target,
      next_module_links !! i = Some (heading, target) ->
      exists id label id' label',
        sql !! i = Some (SidebarDoc id label) /\
        sql !! S i = Some (SidebarDoc id' label') /\
        contains (label_text label) heading = true /\
        link_doc_id target = id'.
Proof.
  eexists _, _. split; [apply tutorialSidebar_tree |].
  split; [vm_compute; reflexivity |]. split; [reflexivity |].
  intros i heading target Hi.
  do 11 (destruct i as [| i];
         [injection Hi as <- <-; eexists _, _, _, _;
          repeat split; vm_compute; reflexivity |]).
  discriminate Hi.
Qed.

(** X10: the home page agrees with the sidebar on the tools, in order,
    and three of its four "Start here" pointers name an item of the
    category they name.  The fourth, SQL → Home, does not: the SQL
    category has no item labeled Home. *)
Theorem home_page_pointers :
  exists root,
    tutorialSidebar = Some root /\
    item_label <$> filter (fun n => is_doc n = false) root = tools_covered /\
    filter (fun e => entry_resolves root e) entry_points
      = [("cURL", "Guide"); ("Postman", "Basics"); ("Git", "Guide")] /\
    entry_resolves root ("SQL", "Home") = false.
Proof.
  eexists. split; [apply tutorialSidebar_tree |].
  repeat split; vm_compute; reflexivity.
Qed.
